(** * Vessel characterization model: configuration, objectives, model
    function and input pipelines.

    Shallow embedding of [classification/models/vessel_characterization_6.py].
    Python floats are IEEE binary64 values ([spec_float] with precision 53),
    NumPy [int64] values are integers wrapped to 64 bits, Python dicts are
    finite maps with string keys, and raised exceptions are the [Err] side
    of a result type. *)

From Stdlib Require Import ZArith List Bool.
From Stdlib Require Import Floats.SpecFloat.
From stdpp Require Import gmap strings list fin_maps.

Set Warnings "-clear-no-such-hyp".
Local Open Scope Z_scope.

(** ** Python and NumPy numbers *)

Module PyNum.

(** binary64: 53 bits of precision, maximal exponent 1024. *)
Definition prec : Z := 53.
Definition emax : Z := 1024.

(** [float(n)] for a Python int. *)
Definition float_of_int (n : Z) : spec_float :=
  binary_normalize prec emax n 0 false.

(** [float(n)] raises [OverflowError] when the int is too large for a double,
    that is when rounding to nearest leaves the finite range. *)
Definition int_too_large (n : Z) : bool :=
  match float_of_int n with
  | S754_infinity _ => true
  | _ => false
  end.

(** Float true division, as [a / b] under [from __future__ import division]. *)
Definition fdiv (a b : spec_float) : spec_float := SFdiv prec emax a b.

(** [a / b] on two Python ints: true division. *)
Definition int_truediv (a b : Z) : spec_float :=
  fdiv (float_of_int a) (float_of_int b).

(** A decimal literal [num / den] such as [0.1], read as the nearest float. *)
Definition float_lit (num den : Z) : spec_float := int_truediv num den.

(** NumPy [int64]: two's complement wrap-around on 64 bits. *)
Definition wrap64 (z : Z) : Z :=
  (z + 2 ^ 63) mod 2 ^ 64 - 2 ^ 63.

Definition int64_mul (a b : Z) : Z := wrap64 (a * b).

(** [np.prod] of a list of Python ints: an [int64] product, 1 when empty. *)
Definition np_prod (l : list Z) : Z := fold_left int64_mul l 1.

(** Python 2 [round(x)] on a finite float: nearest integer, a tie goes
    away from zero.  [None] stands for the non-finite inputs, where
    the following [int(...)] raises. *)
Definition round_half_away (x : spec_float) : option Z :=
  match x with
  | S754_zero _ => Some 0
  | S754_finite s m e =>
      let mag :=
        if 0 <=? e then Zpos m * 2 ^ e
        else
          let d := 2 ^ (- e) in
          let q := Zpos m / d in
          let r := Zpos m mod d in
          if d <=? 2 * r then q + 1 else q in
      Some (if s then - mag else mag)
  | _ => None
  end.

(** Python 3 [round(x)]: nearest integer, a tie goes to the even one. *)
Definition round_half_even (x : spec_float) : option Z :=
  match x with
  | S754_zero _ => Some 0
  | S754_finite s m e =>
      let mag :=
        if 0 <=? e then Zpos m * 2 ^ e
        else
          let d := 2 ^ (- e) in
          let q := Zpos m / d in
          let r := Zpos m mod d in
          match Z.compare (2 * r) d with
          | Lt => q
          | Gt => q + 1
          | Eq => if Z.even q then q else q + 1
          end in
      Some (if s then - mag else mag)
  | _ => None
  end.

End PyNum.

(** ** Class attributes and properties of [Model] *)

Module Model.
Import PyNum.

Definition window_size : Z := 3.
Definition feature_depths : list Z := [48; 64; 96; 128; 192; 256; 384; 512; 768].
Definition strides : list Z := repeat 2 9.
Definition feature_sub_depths : Z := 1024.

Definition initial_learning_rate : spec_float := float_lit 1 1000.
Definition learning_decay_rate : spec_float := float_lit 2 10.
Definition decay_examples : Z := 100000.

Definition virtual_batch_size : Z := 16.

Definition number_of_steps : Z := 700000.
Definition max_window_duration_seconds : Z := 180 * 24 * 3600.
Definition batch_size : Z := 128.
Definition min_viable_timeslice_length : Z := 500.

(** The locals of the [window_max_points] property, in source order. *)
Definition nominal_max_points : spec_float :=
  fdiv (int_truediv max_window_duration_seconds (5 * 60)) (float_of_int 4).

Definition layer_reductions : Z := np_prod strides.

(** [int(round(nominal_max_points / layer_reductions))], parameterised by
    the interpreter's [round]. *)
Definition final_size_with (round : spec_float -> option Z) : option Z :=
  round (fdiv nominal_max_points (float_of_int layer_reductions)).

Definition window_max_points_with (round : spec_float -> option Z) : option Z :=
  match final_size_with round with
  | Some final_size => Some (int64_mul final_size layer_reductions)
  | None => None
  end.

(** The module targets Python 2 (TensorFlow 1 estimators). *)
Definition final_size : option Z := final_size_with round_half_away.
Definition window_max_points : option Z := window_max_points_with round_half_away.

End Model.

(** ** Exceptions and Python values *)

Inductive exn : Type :=
  | KeyError (key : string)
  | TypeError
  | ValueError
  | OverflowError
  | AssertionError.

Inductive result (A : Type) : Type :=
  | Ok (a : A)
  | Err (e : exn).
Arguments Ok {A} a.
Arguments Err {A} e.

(** Sequencing: the first exception raised ends the computation. *)
#[global] Instance result_ret : MRet result := fun A a => Ok a.
#[global] Instance result_bind : MBind result := fun A B k r =>
  match r with
  | Ok a => k a
  | Err e => Err e
  end.

Definition is_ok {A : Type} (r : result A) : bool :=
  match r with Ok _ => true | Err _ => false end.

(** The values a metadata cell or a keyword argument can hold. *)
Inductive pyval : Type :=
  | PyStr (s : string)
  | PyInt (z : Z)
  | PyFloat (f : spec_float).

(** [x == ''] *)
Definition is_empty_str (x : pyval) : bool :=
  match x with
  | PyStr s => bool_decide (s = EmptyString)
  | _ => false
  end.

Module Np.
Import PyNum.

(** [np.nan], a binary64 NaN. *)
Definition nan : spec_float := S754_nan.

(** binary32: 24 bits of precision, maximal exponent 128. *)
Definition to_float32 (f : spec_float) : spec_float :=
  match f with
  | S754_finite s m e => binary_normalize 24 128 (cond_Zopp s (Zpos m)) e s
  | _ => f
  end.

(** [np.float32(x)]; [float32_of_str] is NumPy's reading of a string as a
    float32, [None] when the string is not a number.  A Python int goes
    through [float(x)], which raises when the int is too large. *)
Definition float32 (float32_of_str : string -> option spec_float) (x : pyval)
  : result spec_float :=
  match x with
  | PyFloat f => Ok (to_float32 f)
  | PyInt z =>
      if int_too_large z then Err OverflowError
      else Ok (to_float32 (float_of_int z))
  | PyStr s =>
      match float32_of_str s with
      | Some f => Ok f
      | None => Err ValueError
      end
  end.

End Np.

(** ** The metadata provider *)

(** [classification.metadata]: only the call this module makes. *)
Record VesselMetadata : Type := {
  vessel_label : string -> Z -> result pyval
}.

(** ** Objectives *)

(** The objective classes of [.objectives], as this module constructs them:
    two positional strings, then the label source, then the keyword
    arguments [metrics] and [loss_weight]. *)
Inductive Objective : Type :=
  | LogRegressionObjectiveMAE
      (arg0 arg1 : string) (value_from_mmsi : Z -> result spec_float)
      (metrics : string) (loss_weight : pyval)
  | MultiClassificationObjective
      (arg0 arg1 : string) (vessel_metadata : VesselMetadata)
      (metrics : string) (loss_weight : pyval).

(** The two positional strings an objective was constructed with. *)
Definition first_arg (obj : Objective) : string :=
  match obj with
  | LogRegressionObjectiveMAE arg0 _ _ _ _ => arg0
  | MultiClassificationObjective arg0 _ _ _ _ => arg0
  end.

Definition second_arg (obj : Objective) : string :=
  match obj with
  | LogRegressionObjectiveMAE _ arg1 _ _ _ => arg1
  | MultiClassificationObjective _ arg1 _ _ _ => arg1
  end.

Definition loss_weight (obj : Objective) : pyval :=
  match obj with
  | LogRegressionObjectiveMAE _ _ _ _ w => w
  | MultiClassificationObjective _ _ _ _ w => w
  end.

Definition is_regression (obj : Objective) : bool :=
  match obj with
  | LogRegressionObjectiveMAE _ _ _ _ _ => true
  | MultiClassificationObjective _ _ _ _ _ => false
  end.

Definition is_multiclass (obj : Objective) : bool := negb (is_regression obj).

(** The label-extraction function of a regression objective. *)
Definition value_from_mmsi (obj : Objective) : option (Z -> result spec_float) :=
  match obj with
  | LogRegressionObjectiveMAE _ _ f _ _ => Some f
  | MultiClassificationObjective _ _ _ _ _ => None
  end.

(** ** Model instances *)

Record ModelInst : Type := {
  num_feature_dimensions : Z;
  vessel_metadata : VesselMetadata;
  training_objectives : list Objective;
  objective_map : gmap string Objective
}.

(** ** Input streams *)

(** A [tf.data] stream, as the term of calls that builds it: the two
    constructors of the feature-generation module with their arguments,
    and the three stream transformations this module applies. *)
Inductive Dataset : Type :=
  | vfg_input_fn (vm : VesselMetadata) (filenames : list string)
      (num_features max_time_delta window_size min_timeslice_size : Z)
      (objectives : list Objective) (parallelism : Z)
  | vfg_predict_input_fn (paths : list string) (num_features : Z)
      (time_ranges : list (Z * Z)) (window_size min_timeslice_size : Z)
      (parallelism : Z)
  | prefetch (d : Dataset) (buffer_size : Z)
  | shuffle (d : Dataset) (buffer_size : Z)
  | batch (d : Dataset) (batch_size : Z).

Fixpoint is_prefetched (d : Dataset) : bool :=
  match d with
  | prefetch _ _ => true
  | shuffle d' _ | batch d' _ => is_prefetched d'
  | _ => false
  end.

Fixpoint is_shuffled (d : Dataset) : bool :=
  match d with
  | shuffle _ _ => true
  | prefetch d' _ | batch d' _ => is_shuffled d'
  | _ => false
  end.

Fixpoint is_batched (d : Dataset) : bool :=
  match d with
  | batch _ _ => true
  | prefetch d' _ | shuffle d' _ => is_batched d'
  | _ => false
  end.

(** ** Mode keys and estimator specs *)

Module ModeKeys.
Definition TRAIN : string := "train".
Definition EVAL : string := "eval".
Definition PREDICT : string := "infer".
End ModeKeys.

(** ** What the module calls and does not define *)

Class Externals : Type := {
  (** Which positional string the constructors of the objectives module
      keep as the [name] attribute: the first when [true], the second when
      [false].  That module is not among the sources, and the call sites
      here do not decide it. *)
  name_is_first_arg : bool;
  (** NumPy's string-to-float32 parser. *)
  float32_of_str : string -> option spec_float;
  (** [metadata.TRAINING_SPLIT] and [metadata.TEST_SPLIT]. *)
  TRAINING_SPLIT : string;
  TEST_SPLIT : string;
  (** [ModelBase.build_training_file_list]. *)
  build_training_file_list : ModelInst -> string -> string -> list string;
  (** Graph values of the framework. *)
  Tensor : Type;
  Loss : Type;
  TrainOp : Type;
  MetricOp : Type;
  GlobalStep : Type;
  LearningRate : Type;
  (** The state of the objectives once the network is built. *)
  Net : Type;
  (** [layers.misconception_model]: features, filters_list, kernel_size,
      strides_list, objective_functions, training, sub_filters, sub_layers,
      virtual_batch_size. *)
  misconception_model :
    Tensor -> list Z -> Z -> list Z -> list Objective -> bool -> Z -> Z -> Z -> Net;
  (** [obj.prediction], [obj.create_loss], [obj.create_metrics]. *)
  prediction : Net -> Objective -> Tensor;
  create_loss : Net -> Objective -> Tensor -> Loss;
  create_metrics : Net -> Objective -> Tensor -> gmap string MetricOp;
  (** The Python [0] a loss sum starts from, and [+] on losses. *)
  loss_zero : Loss;
  loss_add : Loss -> Loss -> Loss;
  (** [tf.train.get_global_step], [tf.train.exponential_decay], and
      [AdamOptimizer(learning_rate).minimize(loss, global_step)] under the
      update operations. *)
  get_global_step : GlobalStep;
  exponential_decay : spec_float -> GlobalStep -> Z -> spec_float -> LearningRate;
  adam_minimize : LearningRate -> Loss -> GlobalStep -> TrainOp
}.

Section WithExternals.
Context `{Ext : Externals}.

(** [tf.estimator.EstimatorSpec], with [None] for an argument left out. *)
Record EstimatorSpec : Type := {
  spec_mode : string;
  spec_predictions : option (gmap string Tensor);
  spec_loss : option Loss;
  spec_train_op : option TrainOp;
  spec_eval_metric_ops : option (gmap string MetricOp)
}.

(** The class [XOrNan] local to [Model.__init__]: [key] is the field set
    by its constructor, the function is its [__call__]. *)
Definition XOrNan (vessel_metadata : VesselMetadata) (key : string) (mmsi : Z)
  : result spec_float :=
  x ← vessel_label vessel_metadata key mmsi;
  let x := if is_empty_str x then PyFloat Np.nan else x in
  Np.float32 float32_of_str x.

Definition init_training_objectives (vm : VesselMetadata) (metrics : string)
  : list Objective :=
  [ LogRegressionObjectiveMAE "length" "Vessel-length"
      (XOrNan vm "length") metrics (PyFloat (PyNum.float_lit 1 10));
    LogRegressionObjectiveMAE "tonnage" "Vessel-tonnage"
      (XOrNan vm "tonnage") metrics (PyFloat (PyNum.float_lit 1 10));
    LogRegressionObjectiveMAE "engine_power" "Vessel-engine-Power"
      (XOrNan vm "engine_power") metrics (PyFloat (PyNum.float_lit 1 10));
    LogRegressionObjectiveMAE "crew_size" "Vessel-Crew-Size"
      (XOrNan vm "crew_size") metrics (PyFloat (PyNum.float_lit 1 10));
    MultiClassificationObjective "Multiclass" "Vessel-class" vm metrics
      (PyInt 1) ].

(** [obj.name], one of the two positional strings of the constructor. *)
Definition name (obj : Objective) : string :=
  if name_is_first_arg then first_arg obj else second_arg obj.

(** [{obj.name : obj for obj in objs}]: a later entry replaces an earlier
    one with the same key. *)
Definition dict_by_name (objs : list Objective) : gmap string Objective :=
  fold_left (fun m obj => <[name obj := obj]> m) objs ∅.

(** [Model.__init__]; the base class keeps its two arguments. *)
Definition init (num_feature_dimensions : Z) (vm : VesselMetadata)
    (metrics : string) : ModelInst :=
  let objs := init_training_objectives vm metrics in
  {| num_feature_dimensions := num_feature_dimensions;
     vessel_metadata := vm;
     training_objectives := objs;
     objective_map := dict_by_name objs |}.

(** [d[k]] on a dict. *)
Definition getitem {V : Type} (d : gmap string V) (k : string) : result V :=
  match d !! k with
  | Some v => Ok v
  | None => Err (KeyError k)
  end.

(** [labels[k]], where [labels] is [None] when the estimator predicts. *)
Definition labels_getitem (labels : option (gmap string Tensor)) (k : string)
  : result Tensor :=
  match labels with
  | Some d => getitem d k
  | None => Err TypeError
  end.

Definition _build_net (self : ModelInst) (features timestamps mmsis : Tensor)
    (is_training : bool) : Net :=
  misconception_model features Model.feature_depths Model.window_size
    Model.strides (training_objectives self) is_training
    Model.feature_sub_depths 2 Model.virtual_batch_size.

(** [for obj in objs: predictions[obj.name] = obj.prediction] *)
Definition add_predictions (net : Net) (objs : list Objective)
    (predictions : gmap string Tensor) : gmap string Tensor :=
  fold_left (fun p obj => <[name obj := prediction net obj]> p) objs predictions.

(** [for obj in objs: total_loss += obj.create_loss(labels[obj.name])] *)
Fixpoint add_losses (net : Net) (labels : option (gmap string Tensor))
    (objs : list Objective) (total_loss : Loss) : result Loss :=
  match objs with
  | [] => Ok total_loss
  | obj :: rest =>
      lbl ← labels_getitem labels (name obj);
      add_losses net labels rest (loss_add total_loss (create_loss net obj lbl))
  end.

(** [for obj in objs: eval_metrics.update(obj.create_metrics(labels[obj.name]))] *)
Fixpoint add_metrics (net : Net) (labels : option (gmap string Tensor))
    (objs : list Objective) (eval_metrics : gmap string MetricOp)
  : result (gmap string MetricOp) :=
  match objs with
  | [] => Ok eval_metrics
  | obj :: rest =>
      lbl ← labels_getitem labels (name obj);
      add_metrics net labels rest (create_metrics net obj lbl ∪ eval_metrics)
  end.

(** The closure returned by [make_model_fn]. *)
Definition _model_fn (self : ModelInst) (features : gmap string Tensor)
    (labels : option (gmap string Tensor)) (mode : string)
    (params : gmap string pyval) : result EstimatorSpec :=
  let is_train := bool_decide (mode = ModeKeys.TRAIN) in
  mmsis ← getitem features "mmsi";
  time_ranges ← getitem features "time_ranges";
  timestamps ← getitem features "timestamps";
  features ← getitem features "features";
  let net := _build_net self features timestamps mmsis is_train in
  if bool_decide (mode = ModeKeys.PREDICT) then
    let predictions :=
      add_predictions net (training_objectives self)
        (<["timestamps" := timestamps]>
           (<["time_ranges" := time_ranges]> (<["mmsi" := mmsis]> ∅))) in
    Ok {| spec_mode := mode; spec_predictions := Some predictions;
          spec_loss := None; spec_train_op := None;
          spec_eval_metric_ops := None |}
  else
    let global_step := get_global_step in
    total_loss ← add_losses net labels (training_objectives self) loss_zero;
    let learning_rate :=
      exponential_decay Model.initial_learning_rate global_step
        Model.decay_examples Model.learning_decay_rate in
    if bool_decide (mode = ModeKeys.TRAIN) then
      let train_op := adam_minimize learning_rate total_loss global_step in
      Ok {| spec_mode := mode; spec_predictions := None;
            spec_loss := Some total_loss; spec_train_op := Some train_op;
            spec_eval_metric_ops := None |}
    else if negb (bool_decide (mode = ModeKeys.EVAL)) then
      Err AssertionError
    else
      eval_metrics ← add_metrics net labels (training_objectives self) ∅;
      Ok {| spec_mode := mode; spec_predictions := None;
            spec_loss := Some total_loss; spec_train_op := None;
            spec_eval_metric_ops := Some eval_metrics |}.

Definition make_model_fn (self : ModelInst) := _model_fn self.

(** Reading the [window_max_points] property. *)
Definition get_window_max_points : result Z :=
  match Model.window_max_points with
  | Some n => Ok n
  | None => Err OverflowError
  end.

Definition make_input_fn (self : ModelInst) (base_feature_path split : string)
    (parallelism prefetch_n : Z) : unit -> result Dataset :=
  fun _ =>
    let files := build_training_file_list self base_feature_path split in
    window_max_points ← get_window_max_points;
    Ok (batch
          (shuffle
             (prefetch
                (vfg_input_fn (vessel_metadata self) files
                   (num_feature_dimensions self + 1)
                   Model.max_window_duration_seconds window_max_points
                   Model.min_viable_timeslice_length
                   (training_objectives self) parallelism)
                prefetch_n)
             prefetch_n)
          Model.batch_size).

(** A keyword argument with a default: [None] when the caller leaves it out. *)
Definition with_default (default : Z) (arg : option Z) : Z :=
  match arg with
  | Some v => v
  | None => default
  end.

Definition make_training_input_fn (self : ModelInst) (base_feature_path : string)
    (parallelism : Z) (prefetch_arg : option Z) : unit -> result Dataset :=
  make_input_fn self base_feature_path TRAINING_SPLIT parallelism
    (with_default 1024 prefetch_arg).

Definition make_test_input_fn (self : ModelInst) (base_feature_path : string)
    (parallelism : Z) (prefetch_arg : option Z) : unit -> result Dataset :=
  make_input_fn self base_feature_path TEST_SPLIT parallelism
    (with_default 1024 prefetch_arg).

Definition make_prediction_input_fn (self : ModelInst) (paths : list string)
    (range_info : list (Z * Z)) (parallelism : Z) : unit -> result Dataset :=
  let time_ranges := range_info in
  fun _ =>
    window_max_points ← get_window_max_points;
    Ok (batch
          (vfg_predict_input_fn paths (num_feature_dimensions self + 1)
             time_ranges window_max_points Model.min_viable_timeslice_length
             parallelism)
          1).

End WithExternals.

(** ** The source of a stream *)

(** The call to the feature-generation module a stream starts from. *)
Fixpoint stream_source (d : Dataset) : Dataset :=
  match d with
  | prefetch d' _ | shuffle d' _ | batch d' _ => stream_source d'
  | _ => d
  end.

(** The feature count, window size and minimal timeslice size a source
    was called with. *)
Definition source_shape (d : Dataset) : option (Z * Z * Z) :=
  match stream_source d with
  | vfg_input_fn _ _ num_features _ window_size min_timeslice_size _ _ =>
      Some (num_features, window_size, min_timeslice_size)
  | vfg_predict_input_fn _ num_features _ window_size min_timeslice_size _ =>
      Some (num_features, window_size, min_timeslice_size)
  | _ => None
  end.

(** The size of the outermost [batch] of a stream. *)
Definition outer_batch_size (d : Dataset) : option Z :=
  match d with
  | batch _ n => Some n
  | _ => None
  end.

(** ** Well-formed inputs of the model function *)

Section Inputs.
Context `{Ext : Externals}.

Definition has_key {V : Type} (d : gmap string V) (k : string) : bool :=
  match d !! k with
  | Some _ => true
  | None => false
  end.

(** The feature dict carries the four entries the model function reads. *)
Definition features_ok (features : gmap string Tensor) : bool :=
  has_key features "mmsi" && has_key features "time_ranges"
  && has_key features "timestamps" && has_key features "features".

(** The label dict is present with an entry under every objective's name. *)
Definition labels_ok (self : ModelInst) (labels : option (gmap string Tensor))
  : bool :=
  match labels with
  | Some d => forallb (fun obj => has_key d (name obj)) (training_objectives self)
  | None => false
  end.

(** The network the model function builds from a feature dict. *)
Definition net_of (self : ModelInst) (features : gmap string Tensor)
    (mode : string) : option Net :=
  mmsis ← features !! "mmsi";
  timestamps ← features !! "timestamps";
  feats ← features !! "features";
  Some (_build_net self feats timestamps mmsis
          (bool_decide (mode = ModeKeys.TRAIN))).

(** The first of the four feature keys, in the order the model function
    reads them, that the feature dict lacks. *)
Definition first_missing_feature (features : gmap string Tensor) : option string :=
  if negb (has_key features "mmsi") then Some "mmsi"%string
  else if negb (has_key features "time_ranges") then Some "time_ranges"%string
  else if negb (has_key features "timestamps") then Some "timestamps"%string
  else if negb (has_key features "features") then Some "features"%string
  else None.

(** The value a key ends with after [update] with each dict of a list in
    turn: that of the last dict holding the key. *)
Definition last_binding {V : Type} (k : string) (dicts : list (gmap string V))
    (start : option V) : option V :=
  fold_left (fun acc m => match m !! k with Some v => Some v | None => acc end)
    dicts start.

(** A stream that went through [prefetch], [shuffle] and [batch]. *)
Definition batched_shuffled_prefetched (r : result Dataset) : bool :=
  match r with
  | Ok d => is_batched d && is_shuffled d && is_prefetched d
  | Err _ => false
  end.

End Inputs.

(** ** A concrete environment *)

(** A small metadata table and stand-ins for the framework, on which the
    definitions above run: tensors and losses are integers, the network
    state records the training flag, and metrics are keyed by objective. *)
Module Sample.

Definition metadata : VesselMetadata :=
  {| vessel_label := fun key mmsi =>
       if bool_decide (mmsi = 1) then
         Ok (if bool_decide (key = "length"%string) then PyStr ""
             else PyStr "12.5")
       else if bool_decide (mmsi = 2) then Ok (PyFloat (PyNum.float_of_int 40))
       else Err (KeyError key) |}.

(** A provider whose every cell holds an int beyond the range of a double. *)
Definition metadata_huge : VesselMetadata :=
  {| vessel_label := fun _ _ => Ok (PyInt (2 ^ 1024)) |}.

Definition externals_with (first : bool) : Externals :=
  {| name_is_first_arg := first;
     float32_of_str := fun s =>
       if bool_decide (s = "12.5"%string)
       then Some (Np.to_float32 (PyNum.float_lit 25 2)) else None;
     TRAINING_SPLIT := "Training";
     TEST_SPLIT := "Test";
     build_training_file_list := fun _ base split => [(base +:+ "/" +:+ split)%string];
     Tensor := Z;
     Loss := Z;
     TrainOp := Z;
     MetricOp := Z;
     GlobalStep := Z;
     LearningRate := spec_float;
     Net := bool;
     misconception_model := fun _ _ _ _ _ training _ _ _ => training;
     prediction := fun _ obj => Z.of_nat (String.length (first_arg obj));
     create_loss := fun _ obj lbl => lbl * Z.of_nat (String.length (first_arg obj));
     create_metrics := fun _ obj lbl => {[ first_arg obj := lbl ]};
     loss_zero := 0;
     loss_add := Z.add;
     get_global_step := 0;
     exponential_decay := fun lr _ _ _ => lr;
     adam_minimize := fun _ loss step => loss + step |}.

(** The environment in which the first positional string is the name, and
    the one in which the second is. *)
#[local] Instance externals : Externals := externals_with true.
Definition externals_second : Externals := externals_with false.

Definition model : ModelInst := init 14 metadata "all".

Definition features : gmap string Z :=
  {[ "mmsi" := 1; "time_ranges" := 2; "timestamps" := 3; "features" := 4 ]}.

Definition labels : gmap string Z :=
  {[ "length" := 10; "tonnage" := 20; "engine_power" := 30;
     "crew_size" := 40; "Multiclass" := 50 ]}.

End Sample.

(** * Properties *)

(** ** The window size *)

Section WindowPoints.
Import PyNum.

Lemma strides_nine_twos :
  length Model.strides = 9%nat /\ Forall (fun s => s = 2) Model.strides.
Proof. split; [reflexivity | repeat constructor]. Qed.

Lemma layer_reductions_512 : Model.layer_reductions = 512.
Proof. reflexivity. Qed.

(** The three quotients are exact: 51840, 12960 and 25.3125 = 405 / 16. *)
Lemma nominal_max_points_12960 :
  Model.nominal_max_points = float_of_int 12960.
Proof. vm_compute. reflexivity. Qed.

Lemma points_per_reduction :
  fdiv Model.nominal_max_points (float_of_int Model.layer_reductions)
  = fdiv (float_of_int 405) (float_of_int 16).
Proof. vm_compute. reflexivity. Qed.

(** C1: the value of the [window_max_points] property is
    [round(((max_window_duration_seconds / 300) / 4) / prod(strides)) * prod(strides)],
    so the product of the strides divides it; this holds under the rounding
    of either Python version. *)
Theorem window_max_points_multiple_of_strides :
  forall round, round = round_half_away \/ round = round_half_even ->
  exists final_size : Z,
    round (fdiv (fdiv (int_truediv Model.max_window_duration_seconds 300)
                      (float_of_int 4))
                (float_of_int (np_prod Model.strides)))
      = Some final_size
    /\ Model.window_max_points_with round
       = Some (final_size * np_prod Model.strides)
    /\ (np_prod Model.strides | final_size * np_prod Model.strides).
Proof.
  intros round [-> | ->]; exists 25; (split; [| split]).
  all: try (vm_compute; reflexivity).
  all: apply Z.divide_factor_r.
Qed.

Lemma window_max_points_multiple_of_strides_witness :
  exists final_size : Z,
    Model.window_max_points = Some (final_size * np_prod Model.strides)
    /\ (np_prod Model.strides | final_size * np_prod Model.strides).
Proof.
  destruct (window_max_points_multiple_of_strides round_half_away (or_introl eq_refl))
    as (n & _ & Hw & Hd).
  exists n. split; [exact Hw | exact Hd].
Defined.

(** C8: [window_max_points] is the constant 12800: 12960 nominal points,
    a stride product of 512, 25 after rounding, and 25 * 512 = 12800. *)
Theorem window_max_points_12800 :
  Model.max_window_duration_seconds = 180 * 24 * 3600
  /\ Model.nominal_max_points = float_of_int 12960
  /\ length Model.strides = 9%nat
  /\ Forall (fun s => s = 2) Model.strides
  /\ Model.layer_reductions = 512
  /\ Model.final_size = Some 25
  /\ Model.final_size_with round_half_even = Some 25
  /\ 25 * 512 = 12800
  /\ Model.window_max_points = Some 12800
  /\ Model.window_max_points_with round_half_even = Some 12800.
Proof.
  repeat split; try (vm_compute; reflexivity).
  repeat constructor.
Qed.

End WindowPoints.

(** ** Labels, objectives and the objective map *)

Section ObjectiveProperties.
Context `{Ext : Externals}.

Lemma is_empty_str_true (x : pyval) :
  is_empty_str x = true <-> x = PyStr "".
Proof.
  destruct x as [s | z | f]; simpl; split; try discriminate.
  - intros Hs. apply bool_decide_eq_true in Hs. by subst.
  - intros [= ->]. by apply bool_decide_eq_true.
Qed.

(** C3: [XOrNan(key)(mmsi)] is the float32 NaN when the metadata provider
    returns the empty string, without raising; on any other label value it
    is [np.float32] of that value, with no further check. *)
Theorem XOrNan_empty_is_nan (vm : VesselMetadata) (key : string) (mmsi : Z) :
  (vessel_label vm key mmsi = Ok (PyStr "") ->
     XOrNan vm key mmsi = Ok S754_nan
     /\ XOrNan vm key mmsi = Np.float32 float32_of_str (PyFloat Np.nan))
  /\ (forall x, vessel_label vm key mmsi = Ok x -> x <> PyStr "" ->
        XOrNan vm key mmsi = Np.float32 float32_of_str x).
Proof.
  unfold XOrNan. split.
  - intros ->. simpl. split; reflexivity.
  - intros x -> Hx. simpl.
    destruct (is_empty_str x) eqn:E; [| reflexivity].
    apply is_empty_str_true in E. contradiction.
Qed.

(** Filling a dict by objective name, as [objective_map] and the
    predictions are: its keys, and what stays and what is found. *)
Lemma insert_by_name_dom {V : Type} (f : Objective -> V)
    (objs : list Objective) (m : gmap string V) :
  dom (fold_left (fun m obj => <[name obj := f obj]> m) objs m)
  = list_to_set (name <$> objs) ∪ dom m.
Proof.
  revert m. induction objs as [| o objs IH]; intros m; simpl.
  - set_solver.
  - rewrite IH, dom_insert_L. set_solver.
Qed.

Lemma insert_by_name_other {V : Type} (f : Objective -> V)
    (objs : list Objective) (m : gmap string V) (k : string) :
  k ∉ name <$> objs ->
  fold_left (fun m obj => <[name obj := f obj]> m) objs m !! k = m !! k.
Proof.
  revert m. induction objs as [| o objs IH]; intros m Hk; simpl; [done |].
  rewrite fmap_cons in Hk. apply not_elem_of_cons in Hk as [Hne Hk].
  rewrite IH by done. by rewrite lookup_insert_ne.
Qed.

(** With pairwise distinct names every objective is found under its name. *)
Lemma insert_by_name_lookup {V : Type} (f : Objective -> V)
    (objs : list Objective) (m : gmap string V) (obj : Objective) :
  NoDup (name <$> objs) -> obj ∈ objs ->
  fold_left (fun m obj => <[name obj := f obj]> m) objs m !! name obj
  = Some (f obj).
Proof.
  revert m.
  induction objs as [| o objs IH]; intros m Hnd Hin; [by apply elem_of_nil in Hin |].
  rewrite fmap_cons in Hnd. apply NoDup_cons in Hnd as [Hfresh Hnd].
  simpl. apply elem_of_cons in Hin as [-> | Hin].
  - rewrite insert_by_name_other by done. apply lookup_insert_eq.
  - by apply IH.
Qed.

Lemma dict_by_name_dom (objs : list Objective) :
  dom (dict_by_name objs) = list_to_set (name <$> objs).
Proof.
  unfold dict_by_name.
  rewrite (insert_by_name_dom (fun obj => obj)), dom_empty_L.
  by rewrite (right_id_L ∅ (∪)).
Qed.

Lemma dict_by_name_lookup (objs : list Objective) (obj : Objective) :
  NoDup (name <$> objs) -> obj ∈ objs ->
  dict_by_name objs !! name obj = Some obj.
Proof. apply (insert_by_name_lookup (fun obj => obj)). Qed.

Lemma dict_by_name_size (objs : list Objective) :
  NoDup (name <$> objs) -> size (dict_by_name objs) = length objs.
Proof.
  intros Hnd. rewrite <- size_dom, dict_by_name_dom.
  rewrite size_list_to_set by done. by rewrite length_fmap.
Qed.

(** The names of the five objectives, for either positional string. *)
Lemma init_names (n : Z) (vm : VesselMetadata) (metrics : string) :
  name <$> training_objectives (init n vm metrics)
  = if name_is_first_arg
    then ["length"; "tonnage"; "engine_power"; "crew_size"; "Multiclass"]%string
    else ["Vessel-length"; "Vessel-tonnage"; "Vessel-engine-Power";
          "Vessel-Crew-Size"; "Vessel-class"]%string.
Proof. unfold name. simpl. by destruct name_is_first_arg. Qed.

Lemma init_names_NoDup (n : Z) (vm : VesselMetadata) (metrics : string) :
  NoDup (name <$> training_objectives (init n vm metrics)).
Proof.
  rewrite init_names.
  destruct name_is_first_arg; apply (bool_decide_unpack _); vm_compute; exact I.
Qed.

(** None of them is a key of the feature dict. *)
Lemma init_names_not_feature (n : Z) (vm : VesselMetadata) (metrics : string)
    (k : string) :
  k ∈ ["mmsi"; "time_ranges"; "timestamps"; "features"]%string ->
  k ∉ name <$> training_objectives (init n vm metrics).
Proof.
  rewrite init_names. intros Hk.
  repeat (apply elem_of_cons in Hk as [-> | Hk];
          [destruct name_is_first_arg; apply (bool_decide_unpack _);
           vm_compute; exact I |]).
  by apply elem_of_nil in Hk.
Qed.

(** [Model.__init__] builds five objectives whatever the provider and the
    metrics setting: four regression objectives constructed with 'length',
    'tonnage', 'engine_power' and 'crew_size', each reading its label through
    the [XOrNan] of that very key and weighted 0.1, then one multi-class
    objective weighted by the int 1.  The name of each is one of its two
    positional strings. *)
Theorem training_objectives_five (n : Z) (vm : VesselMetadata) (metrics : string) :
  let objs := training_objectives (init n vm metrics) in
  length objs = 5%nat
  /\ first_arg <$> objs
     = ["length"; "tonnage"; "engine_power"; "crew_size"; "Multiclass"]%string
  /\ second_arg <$> objs
     = ["Vessel-length"; "Vessel-tonnage"; "Vessel-engine-Power";
        "Vessel-Crew-Size"; "Vessel-class"]%string
  /\ is_regression <$> objs = [true; true; true; true; false]
  /\ is_multiclass <$> objs = [false; false; false; false; true]
  /\ loss_weight <$> objs
     = [PyFloat (PyNum.float_lit 1 10); PyFloat (PyNum.float_lit 1 10);
        PyFloat (PyNum.float_lit 1 10); PyFloat (PyNum.float_lit 1 10);
        PyInt 1]
  /\ PyNum.float_lit 1 10 = S754_finite false 7205759403792794 (-56)
  /\ Forall (fun obj =>
        is_regression obj = true ->
        value_from_mmsi obj = Some (XOrNan vm (first_arg obj))) objs
  /\ (name <$> objs = first_arg <$> objs \/ name <$> objs = second_arg <$> objs).
Proof.
  simpl. repeat split.
  - unfold init_training_objectives.
    repeat (apply Forall_cons; split; [simpl; first [reflexivity | discriminate] |]).
    apply Forall_nil_2.
  - unfold name. destruct name_is_first_arg; [by left | by right].
Qed.

(** After construction [objective_map] sends the name of every training
    objective to that objective and holds nothing else: whichever of its
    two positional strings is the name of an objective, the five names are
    pairwise distinct, so the map has exactly five entries. *)
Theorem objective_map_by_name (n : Z) (vm : VesselMetadata) (metrics : string) :
  let self := init n vm metrics in
  NoDup (name <$> training_objectives self)
  /\ size (objective_map self) = 5%nat
  /\ dom (objective_map self)
     = list_to_set (name <$> training_objectives self)
  /\ (forall obj, obj ∈ training_objectives self ->
        objective_map self !! name obj = Some obj)
  /\ (forall k obj, objective_map self !! k = Some obj ->
        obj ∈ training_objectives self /\ name obj = k).
Proof.
  intros self.
  assert (Hnd : NoDup (name <$> training_objectives self))
    by apply init_names_NoDup.
  assert (Hdom : dom (objective_map self)
                 = list_to_set (name <$> training_objectives self)).
  { apply dict_by_name_dom. }
  assert (Hlook : forall obj, obj ∈ training_objectives self ->
                    objective_map self !! name obj = Some obj).
  { intros obj Hin. by apply dict_by_name_lookup. }
  assert (Hinv : forall k obj, objective_map self !! k = Some obj ->
                    obj ∈ training_objectives self /\ name obj = k).
  { intros k obj Hk.
    assert (Hd : k ∈ dom (objective_map self)) by (apply elem_of_dom; eauto).
    rewrite Hdom in Hd. apply elem_of_list_to_set in Hd.
    apply list_elem_of_fmap in Hd as (o & -> & Ho).
    rewrite (Hlook o Ho) in Hk. injection Hk as <-. by split. }
  split; [exact Hnd |]. split; [| split; [exact Hdom |]; split; assumption].
  change (objective_map self) with (dict_by_name (training_objectives self)).
  by rewrite dict_by_name_size.
Qed.

End ObjectiveProperties.

Lemma XOrNan_empty_is_nan_witness :
  vessel_label Sample.metadata "length" 1 = Ok (PyStr "")
  /\ XOrNan (Ext := Sample.externals) Sample.metadata "length" 1 = Ok S754_nan
  /\ vessel_label Sample.metadata "tonnage" 1 = Ok (PyStr "12.5")
  /\ XOrNan (Ext := Sample.externals) Sample.metadata "tonnage" 1
     = Ok (S754_finite false 13107200 (-20)).
Proof.
  pose proof (XOrNan_empty_is_nan (Ext := Sample.externals)
                Sample.metadata "length" 1) as [Hnan _].
  pose proof (XOrNan_empty_is_nan (Ext := Sample.externals)
                Sample.metadata "tonnage" 1) as [_ Hval].
  split; [reflexivity |]. split; [exact (proj1 (Hnan eq_refl)) |].
  split; [reflexivity |].
  rewrite (Hval (PyStr "12.5") eq_refl); [reflexivity | discriminate].
Defined.

(** ** The model function *)

Section ModelFnProperties.
Context `{Ext : Externals}.

Lemma bind_Ok {A B : Type} (f : A -> result B) (a : A) :
  (Ok a ≫= f) = f a.
Proof. reflexivity. Qed.

Lemma has_key_getitem {V : Type} (d : gmap string V) (k : string) :
  has_key d k = true -> exists v, d !! k = Some v /\ getitem d k = Ok v.
Proof.
  unfold has_key, getitem. destruct (d !! k) as [v |]; [| discriminate].
  intros _. by exists v.
Qed.

Lemma features_ok_entries (features : gmap string Tensor) :
  features_ok features = true ->
  exists mmsis time_ranges timestamps feats,
    features !! "mmsi" = Some mmsis
    /\ features !! "time_ranges" = Some time_ranges
    /\ features !! "timestamps" = Some timestamps
    /\ features !! "features" = Some feats.
Proof.
  unfold features_ok. rewrite !andb_true_iff. intros [[[H1 H2] H3] H4].
  apply has_key_getitem in H1 as (v1 & ? & _), H2 as (v2 & ? & _),
    H3 as (v3 & ? & _), H4 as (v4 & ? & _).
  by exists v1, v2, v3, v4.
Qed.

(** The label entries, in the order of the objectives. *)
Lemma labels_ok_entries (self : ModelInst) (d : gmap string Tensor) :
  labels_ok self (Some d) = true ->
  exists lbls,
    Forall2 (fun obj l => d !! name obj = Some l) (training_objectives self) lbls.
Proof.
  simpl. induction (training_objectives self) as [| o objs IH]; simpl.
  - intros _. exists []. constructor.
  - rewrite andb_true_iff. intros [Ho Hrest].
    apply has_key_getitem in Ho as (l & Hl & _).
    destruct (IH Hrest) as (lbls & Hlbls).
    exists (l :: lbls). by constructor.
Qed.

(** The loss loop adds one term per objective, from that objective's own
    label entry, in the order of the list. *)
Lemma add_losses_fold (net : Net) (d : gmap string Tensor)
    (objs : list Objective) (lbls : list Tensor) (acc : Loss) :
  Forall2 (fun obj l => d !! name obj = Some l) objs lbls ->
  add_losses net (Some d) objs acc
  = Ok (fold_left loss_add (zip_with (create_loss net) objs lbls) acc).
Proof.
  intros H. revert acc.
  induction H as [| o l objs lbls Hl _ IH]; intros acc; simpl; [done |].
  unfold getitem. rewrite Hl. simpl. apply IH.
Qed.

Lemma add_metrics_total (net : Net) (d : gmap string Tensor)
    (objs : list Objective) (lbls : list Tensor) (m : gmap string MetricOp) :
  Forall2 (fun obj l => d !! name obj = Some l) objs lbls ->
  exists m', add_metrics net (Some d) objs m = Ok m'.
Proof.
  intros H. revert m.
  induction H as [| o l objs lbls Hl _ IH]; intros m; simpl; [by eexists |].
  unfold getitem. rewrite Hl. simpl. apply IH.
Qed.

Lemma mode_keys_distinct :
  ModeKeys.TRAIN <> ModeKeys.PREDICT /\ ModeKeys.EVAL <> ModeKeys.PREDICT
  /\ ModeKeys.TRAIN <> ModeKeys.EVAL.
Proof. repeat split; discriminate. Qed.

(** Unfolding of the model function once the feature dict is known to hold
    its four entries. *)
Lemma model_fn_features (self : ModelInst) (features : gmap string Tensor)
    (labels : option (gmap string Tensor)) (mode : string)
    (params : gmap string pyval) (mmsis time_ranges timestamps feats : Tensor) :
  features !! "mmsi" = Some mmsis ->
  features !! "time_ranges" = Some time_ranges ->
  features !! "timestamps" = Some timestamps ->
  features !! "features" = Some feats ->
  _model_fn self features labels mode params
  = let net := _build_net self feats timestamps mmsis
                 (bool_decide (mode = ModeKeys.TRAIN)) in
    if bool_decide (mode = ModeKeys.PREDICT) then
      Ok {| spec_mode := mode;
            spec_predictions :=
              Some (add_predictions net (training_objectives self)
                      (<["timestamps" := timestamps]>
                         (<["time_ranges" := time_ranges]>
                            (<["mmsi" := mmsis]> ∅))));
            spec_loss := None; spec_train_op := None;
            spec_eval_metric_ops := None |}
    else
      total_loss ← add_losses net labels (training_objectives self) loss_zero;
      if bool_decide (mode = ModeKeys.TRAIN) then
        Ok {| spec_mode := mode; spec_predictions := None;
              spec_loss := Some total_loss;
              spec_train_op :=
                Some (adam_minimize
                        (exponential_decay Model.initial_learning_rate
                           get_global_step Model.decay_examples
                           Model.learning_decay_rate)
                        total_loss get_global_step);
              spec_eval_metric_ops := None |}
      else if negb (bool_decide (mode = ModeKeys.EVAL)) then Err AssertionError
      else
        eval_metrics ← add_metrics net labels (training_objectives self) ∅;
        Ok {| spec_mode := mode; spec_predictions := None;
              spec_loss := Some total_loss; spec_train_op := None;
              spec_eval_metric_ops := Some eval_metrics |}.
Proof.
  intros H1 H2 H3 H4. unfold _model_fn, getitem.
  rewrite H1, H2, H3, H4. reflexivity.
Qed.

(** A mode that is none of the three keys never yields a spec. *)
Lemma model_fn_other_mode_fails (self : ModelInst)
    (features : gmap string Tensor) (labels : option (gmap string Tensor))
    (mode : string) (params : gmap string pyval) :
  mode <> ModeKeys.TRAIN -> mode <> ModeKeys.EVAL -> mode <> ModeKeys.PREDICT ->
  is_ok (_model_fn self features labels mode params) = false.
Proof.
  intros Ht He Hp. unfold _model_fn.
  destruct (getitem features "mmsi"); [simpl | done].
  destruct (getitem features "time_ranges"); [simpl | done].
  destruct (getitem features "timestamps"); [simpl | done].
  destruct (getitem features "features"); [simpl | done].
  rewrite (bool_decide_eq_false_2 _ Hp), (bool_decide_eq_false_2 _ Ht),
    (bool_decide_eq_false_2 _ He).
  destruct (add_losses _ _ _ _); done.
Qed.

(** C2: the model function handles exactly the modes TRAIN, EVAL and
    PREDICT.  On well-formed inputs each of the three yields an estimator
    spec for that mode; any other mode yields no spec, whatever the inputs,
    and on well-formed inputs it fails at the final assertion. *)
Theorem model_fn_mode_dispatch (self : ModelInst)
    (features : gmap string Tensor) (labels : option (gmap string Tensor))
    (mode : string) (params : gmap string pyval) :
  (mode <> ModeKeys.TRAIN -> mode <> ModeKeys.EVAL -> mode <> ModeKeys.PREDICT ->
     is_ok (_model_fn self features labels mode params) = false)
  /\ (features_ok features = true ->
        (mode = ModeKeys.PREDICT ->
           exists spec, _model_fn self features labels mode params = Ok spec
                        /\ spec_mode spec = ModeKeys.PREDICT
                        /\ is_Some (spec_predictions spec))
        /\ (labels_ok self labels = true ->
              (mode = ModeKeys.TRAIN ->
                 exists spec, _model_fn self features labels mode params = Ok spec
                              /\ spec_mode spec = ModeKeys.TRAIN
                              /\ is_Some (spec_loss spec)
                              /\ is_Some (spec_train_op spec))
              /\ (mode = ModeKeys.EVAL ->
                    exists spec, _model_fn self features labels mode params = Ok spec
                                 /\ spec_mode spec = ModeKeys.EVAL
                                 /\ is_Some (spec_loss spec)
                                 /\ is_Some (spec_eval_metric_ops spec))
              /\ (mode <> ModeKeys.TRAIN -> mode <> ModeKeys.EVAL ->
                  mode <> ModeKeys.PREDICT ->
                    _model_fn self features labels mode params
                    = Err AssertionError))).
Proof.
  split; [apply model_fn_other_mode_fails |].
  intros Hf.
  destruct (features_ok_entries _ Hf) as (mmsis & tr & ts & fs & H1 & H2 & H3 & H4).
  rewrite (model_fn_features self features labels mode params _ _ _ _ H1 H2 H3 H4).
  cbv zeta. split.
  - intros ->. rewrite bool_decide_eq_true_2 by done. eexists. by repeat split.
  - intros Hl. destruct labels as [d |]; [| discriminate].
    destruct (labels_ok_entries _ _ Hl) as (lbls & Hlbls).
    rewrite (add_losses_fold _ _ _ _ _ Hlbls).
    destruct mode_keys_distinct as (Htp & Hep & Hte).
    split; [| split].
    + intros ->. rewrite (bool_decide_eq_false_2 _ Htp), bind_Ok.
      rewrite bool_decide_eq_true_2 by done. eexists. by repeat split.
    + intros ->. rewrite (bool_decide_eq_false_2 _ Hep), bind_Ok.
      rewrite (bool_decide_eq_false_2 (ModeKeys.EVAL = ModeKeys.TRAIN))
        by (intros E; by apply Hte).
      rewrite bool_decide_eq_true_2 by done. cbn [negb].
      destruct (add_metrics_total
                  (_build_net self fs ts mmsis
                     (bool_decide (ModeKeys.EVAL = ModeKeys.TRAIN)))
                  d _ _ ∅ Hlbls) as (m & Hm).
      rewrite (bool_decide_eq_false_2 (ModeKeys.EVAL = ModeKeys.TRAIN)) in Hm
        by (intros E; by apply Hte).
      rewrite Hm, bind_Ok. eexists. by repeat split.
    + intros Ht He Hp.
      rewrite (bool_decide_eq_false_2 _ Hp), bind_Ok.
      by rewrite (bool_decide_eq_false_2 _ Ht), (bool_decide_eq_false_2 _ He).
Qed.

(** C6: in TRAIN and in EVAL mode the loss of the returned spec is the sum,
    started from 0 and taken in list order over the five training
    objectives, of [create_loss] of each objective on the label entry under
    that objective's name. *)
Theorem total_loss_is_sum_of_objective_losses
    (n : Z) (vm : VesselMetadata) (metrics : string)
    (features d : gmap string Tensor) (mode : string)
    (params : gmap string pyval) (net : Net) (lbls : list Tensor) :
  let self := init n vm metrics in
  mode = ModeKeys.TRAIN \/ mode = ModeKeys.EVAL ->
  features_ok features = true ->
  net_of self features mode = Some net ->
  Forall2 (fun obj l => d !! name obj = Some l) (training_objectives self) lbls ->
  length (training_objectives self) = 5%nat
  /\ length lbls = 5%nat
  /\ exists spec,
       _model_fn self features (Some d) mode params = Ok spec
       /\ spec_mode spec = mode
       /\ spec_loss spec
          = Some (fold_left loss_add
                    (zip_with (create_loss net) (training_objectives self) lbls)
                    loss_zero).
Proof.
  intros self Hmode Hf Hnet Hlbls.
  split; [reflexivity |].
  split; [by rewrite <- (Forall2_length _ _ _ Hlbls) |].
  destruct (features_ok_entries _ Hf) as (mmsis & tr & ts & fs & H1 & H2 & H3 & H4).
  unfold net_of in Hnet. rewrite H1, H3, H4 in Hnet. simpl in Hnet.
  injection Hnet as <-.
  rewrite (model_fn_features self features (Some d) mode params _ _ _ _ H1 H2 H3 H4).
  cbv zeta.
  destruct mode_keys_distinct as (Htp & Hep & Hte).
  rewrite (add_losses_fold _ _ _ _ _ Hlbls).
  destruct Hmode as [-> | ->].
  - rewrite (bool_decide_eq_false_2 _ Htp), bind_Ok.
    rewrite bool_decide_eq_true_2 by done. eexists. by repeat split.
  - rewrite (bool_decide_eq_false_2 _ Hep), bind_Ok.
    destruct (add_metrics_total
                (_build_net self fs ts mmsis
                   (bool_decide (ModeKeys.EVAL = ModeKeys.TRAIN)))
                d _ _ ∅ Hlbls) as (m & Hm).
    rewrite (bool_decide_eq_false_2 (ModeKeys.EVAL = ModeKeys.TRAIN)) in *
      by (intros E; by apply Hte).
    rewrite bool_decide_eq_true_2 by done. cbn [negb].
    rewrite Hm, bind_Ok. eexists. by repeat split.
Qed.

(** C9: in PREDICT mode the result does not depend on the labels, so it is
    the same with the labels absent; on a well-formed feature dict it is a
    spec whose predictions have exactly the keys 'mmsi', 'time_ranges' and
    'timestamps' and the names of the training objectives, each name
    holding the prediction of its objective. *)
Theorem predict_ignores_labels
    (n : Z) (vm : VesselMetadata) (metrics : string)
    (features : gmap string Tensor) (labels : option (gmap string Tensor))
    (params : gmap string pyval) :
  let self := init n vm metrics in
  _model_fn self features labels ModeKeys.PREDICT params
  = _model_fn self features None ModeKeys.PREDICT params
  /\ (features_ok features = true ->
        exists spec preds net,
          _model_fn self features None ModeKeys.PREDICT params = Ok spec
          /\ spec_predictions spec = Some preds
          /\ net_of self features ModeKeys.PREDICT = Some net
          /\ dom preds
             = {[ "mmsi"; "time_ranges"; "timestamps" ]}
               ∪ list_to_set (name <$> training_objectives self)
          /\ size preds = 8%nat
          /\ (forall obj, obj ∈ training_objectives self ->
                preds !! name obj = Some (prediction net obj))
          /\ preds !! "mmsi" = features !! "mmsi"
          /\ preds !! "time_ranges" = features !! "time_ranges"
          /\ preds !! "timestamps" = features !! "timestamps").
Proof.
  intros self. split.
  - unfold _model_fn.
    destruct (getitem features "mmsi"); [simpl | done].
    destruct (getitem features "time_ranges"); [simpl | done].
    destruct (getitem features "timestamps"); [simpl | done].
    destruct (getitem features "features"); [simpl | done].
    reflexivity.
  - intros Hf.
    destruct (features_ok_entries _ Hf) as (mmsis & tr & ts & fs & H1 & H2 & H3 & H4).
    rewrite (model_fn_features self features None _ params _ _ _ _ H1 H2 H3 H4).
    cbv zeta. rewrite bool_decide_eq_true_2 by done.
    eexists _, _, _. split; [reflexivity |]. split; [reflexivity |].
    split; [unfold net_of; rewrite H1, H3, H4; reflexivity |].
    assert (Hdom : dom (add_predictions
                     (_build_net self fs ts mmsis
                        (bool_decide (ModeKeys.PREDICT = ModeKeys.TRAIN)))
                     (training_objectives self)
                     (<["timestamps":=ts]> (<["time_ranges":=tr]> (<["mmsi":=mmsis]> ∅))))
                   = {[ "mmsi"; "time_ranges"; "timestamps" ]}
                     ∪ list_to_set (name <$> training_objectives self)).
    { unfold add_predictions. rewrite insert_by_name_dom.
      rewrite !dom_insert_L, dom_empty_L. set_solver. }
    split; [exact Hdom |].
    split; [| split; [| repeat split]].
    + rewrite <- size_dom, Hdom. unfold self. rewrite init_names.
      by destruct name_is_first_arg.
    + intros obj Hin. unfold add_predictions.
      apply (insert_by_name_lookup (prediction _)); [apply init_names_NoDup | done].
    + unfold add_predictions. rewrite insert_by_name_other.
      * rewrite H1. by simplify_map_eq.
      * apply init_names_not_feature. set_solver.
    + unfold add_predictions. rewrite insert_by_name_other.
      * rewrite H2. by simplify_map_eq.
      * apply init_names_not_feature. set_solver.
    + unfold add_predictions. rewrite insert_by_name_other.
      * rewrite H3. by simplify_map_eq.
      * apply init_names_not_feature. set_solver.
Qed.

End ModelFnProperties.

(** ** The input functions *)

Section InputFnProperties.
Context `{Ext : Externals}.

Lemma get_window_max_points_12800 : get_window_max_points = Ok 12800.
Proof. vm_compute. reflexivity. Qed.

(** The stream every [make_input_fn] closure builds. *)
Lemma make_input_fn_stream (self : ModelInst) (base_feature_path split : string)
    (parallelism prefetch_n : Z) :
  make_input_fn self base_feature_path split parallelism prefetch_n tt
  = Ok (batch
          (shuffle
             (prefetch
                (vfg_input_fn (vessel_metadata self)
                   (build_training_file_list self base_feature_path split)
                   (num_feature_dimensions self + 1) 15552000 12800 500
                   (training_objectives self) parallelism)
                prefetch_n)
             prefetch_n)
          128).
Proof. unfold make_input_fn. rewrite get_window_max_points_12800. reflexivity. Qed.

(** C4, as the code has it: the training and the test input functions
    prefetch, then shuffle, then batch (by 128) the stream of the
    feature-generation module; the prediction input function only batches
    (by 1) the prediction stream, with neither shuffle nor prefetch. *)
Theorem input_fn_pipelines (self : ModelInst) (base_feature_path : string)
    (parallelism : Z) (prefetch_arg : option Z) (paths : list string)
    (range_info : list (Z * Z)) :
  let n := with_default 1024 prefetch_arg in
  let source split :=
    vfg_input_fn (vessel_metadata self)
      (build_training_file_list self base_feature_path split)
      (num_feature_dimensions self + 1) 15552000 12800 500
      (training_objectives self) parallelism in
  let training :=
    make_training_input_fn self base_feature_path parallelism prefetch_arg tt in
  let test :=
    make_test_input_fn self base_feature_path parallelism prefetch_arg tt in
  let prediction :=
    make_prediction_input_fn self paths range_info parallelism tt in
  training = Ok (batch (shuffle (prefetch (source TRAINING_SPLIT) n) n) 128)
  /\ test = Ok (batch (shuffle (prefetch (source TEST_SPLIT) n) n) 128)
  /\ batched_shuffled_prefetched training = true
  /\ batched_shuffled_prefetched test = true
  /\ prediction
     = Ok (batch
             (vfg_predict_input_fn paths (num_feature_dimensions self + 1)
                range_info 12800 500 parallelism)
             1)
  /\ (exists d, prediction = Ok d /\ is_batched d = true
                /\ is_shuffled d = false /\ is_prefetched d = false).
Proof.
  intros n source training test prediction.
  assert (Htr : training
                = Ok (batch (shuffle (prefetch (source TRAINING_SPLIT) n) n) 128))
    by apply make_input_fn_stream.
  assert (Hte : test = Ok (batch (shuffle (prefetch (source TEST_SPLIT) n) n) 128))
    by apply make_input_fn_stream.
  assert (Hpr : prediction
                = Ok (batch
                        (vfg_predict_input_fn paths (num_feature_dimensions self + 1)
                           range_info 12800 500 parallelism)
                        1)).
  { unfold prediction, make_prediction_input_fn.
    rewrite get_window_max_points_12800. reflexivity. }
  split; [exact Htr |]. split; [exact Hte |].
  split; [by rewrite Htr |]. split; [by rewrite Hte |].
  split; [exact Hpr |].
  eexists. split; [exact Hpr |]. by repeat split.
Qed.

(** C7: the training and the test input functions are the generic one at
    the training and at the test split, with 1024 for a [prefetch] left out. *)
Theorem training_and_test_input_fn_specialise (self : ModelInst)
    (base_feature_path : string) (parallelism prefetch_n : Z) :
  make_training_input_fn self base_feature_path parallelism (Some prefetch_n)
  = make_input_fn self base_feature_path TRAINING_SPLIT parallelism prefetch_n
  /\ make_training_input_fn self base_feature_path parallelism None
     = make_input_fn self base_feature_path TRAINING_SPLIT parallelism 1024
  /\ make_test_input_fn self base_feature_path parallelism (Some prefetch_n)
     = make_input_fn self base_feature_path TEST_SPLIT parallelism prefetch_n
  /\ make_test_input_fn self base_feature_path parallelism None
     = make_input_fn self base_feature_path TEST_SPLIT parallelism 1024.
Proof. repeat split. Qed.

End InputFnProperties.

(** ** The properties on the concrete environment *)

(** C4 as first stated fails on the prediction input function: its stream
    is batched, and neither shuffled nor prefetched. *)
Lemma prediction_stream_not_shuffled :
  ~ batched_shuffled_prefetched
      (make_prediction_input_fn Sample.model
         ["features/part-0"%string] [(0, 100)] 4 tt) = true.
Proof. vm_compute. discriminate. Qed.

Lemma training_objectives_five_witness :
  first_arg <$> training_objectives
                  (init (Ext := Sample.externals) 14 Sample.metadata "all")
  = ["length"; "tonnage"; "engine_power"; "crew_size"; "Multiclass"]%string.
Proof.
  exact (proj1 (proj2 (training_objectives_five (Ext := Sample.externals)
                         14 Sample.metadata "all"))).
Defined.

Lemma objective_map_by_name_witness :
  objective_map (init (Ext := Sample.externals) 14 Sample.metadata "all")
    !! "Multiclass"%string
  = Some (MultiClassificationObjective "Multiclass" "Vessel-class"
            Sample.metadata "all" (PyInt 1))
  /\ objective_map (init (Ext := Sample.externals_second) 14 Sample.metadata "all")
       !! "Vessel-class"%string
     = Some (MultiClassificationObjective "Multiclass" "Vessel-class"
               Sample.metadata "all" (PyInt 1)).
Proof.
  split.
  - apply (proj1 (proj2 (proj2 (proj2
             (objective_map_by_name (Ext := Sample.externals)
                14 Sample.metadata "all"))))
             (MultiClassificationObjective "Multiclass" "Vessel-class"
                Sample.metadata "all" (PyInt 1))).
    do 4 apply list_elem_of_further. apply list_elem_of_here.
  - apply (proj1 (proj2 (proj2 (proj2
             (objective_map_by_name (Ext := Sample.externals_second)
                14 Sample.metadata "all"))))
             (MultiClassificationObjective "Multiclass" "Vessel-class"
                Sample.metadata "all" (PyInt 1))).
    do 4 apply list_elem_of_further. apply list_elem_of_here.
Defined.

Lemma model_fn_mode_dispatch_witness :
  features_ok (Ext := Sample.externals) Sample.features = true
  /\ labels_ok (Ext := Sample.externals) Sample.model (Some Sample.labels) = true
  /\ _model_fn (Ext := Sample.externals) Sample.model Sample.features
       (Some Sample.labels) "serve" ∅ = Err AssertionError
  /\ is_ok (_model_fn (Ext := Sample.externals) Sample.model ∅ None "serve" ∅) = false
  /\ exists spec,
       _model_fn (Ext := Sample.externals) Sample.model Sample.features
         (Some Sample.labels) ModeKeys.TRAIN ∅ = Ok spec
       /\ spec_mode spec = ModeKeys.TRAIN.
Proof.
  split; [reflexivity |]. split; [reflexivity |].
  split; [| split].
  - apply (model_fn_mode_dispatch (Ext := Sample.externals) Sample.model
             Sample.features (Some Sample.labels) "serve" ∅);
      first [reflexivity | discriminate].
  - apply (model_fn_mode_dispatch (Ext := Sample.externals) Sample.model
             ∅ None "serve" ∅); discriminate.
  - destruct (model_fn_mode_dispatch (Ext := Sample.externals) Sample.model
                Sample.features (Some Sample.labels) ModeKeys.TRAIN ∅)
      as [_ H].
    destruct (H eq_refl) as [_ H'].
    destruct (H' eq_refl) as [Htrain _].
    destruct (Htrain eq_refl) as (spec & Hs & Hm & _).
    exists spec. split; [exact Hs | exact Hm].
Defined.

Lemma total_loss_is_sum_of_objective_losses_witness :
  exists spec,
    _model_fn (Ext := Sample.externals) Sample.model Sample.features
      (Some Sample.labels) ModeKeys.EVAL ∅ = Ok spec
    /\ spec_mode spec = ModeKeys.EVAL
    /\ spec_loss spec = Some (10 * 6 + 20 * 7 + 30 * 12 + 40 * 9 + 50 * 10).
Proof.
  destruct (total_loss_is_sum_of_objective_losses (Ext := Sample.externals)
              14 Sample.metadata "all" Sample.features Sample.labels
              ModeKeys.EVAL ∅ false [10; 20; 30; 40; 50])
    as (_ & _ & spec & Hs & Hm & Hl).
  - right; reflexivity.
  - reflexivity.
  - reflexivity.
  - repeat constructor.
  - exists spec. split; [exact Hs |]. split; [exact Hm | exact Hl].
Defined.

Lemma predict_ignores_labels_witness :
  exists spec preds,
    _model_fn (Ext := Sample.externals) Sample.model Sample.features None
      ModeKeys.PREDICT ∅ = Ok spec
    /\ spec_predictions spec = Some preds
    /\ size preds = 8%nat
    /\ preds !! "mmsi"%string = Some 1.
Proof.
  destruct (predict_ignores_labels (Ext := Sample.externals)
              14 Sample.metadata "all" Sample.features None ∅) as [_ H].
  destruct (H eq_refl) as (spec & preds & net & Hs & Hp & _ & _ & Hsz & _ & Hm & _).
  exists spec, preds. split; [exact Hs |]. split; [exact Hp |].
  split; [exact Hsz |]. exact (eq_trans Hm eq_refl).
Defined.

(** * Further properties of the model function *)

Section ModelFnErrors.
Context `{Ext : Externals}.

Lemma has_key_false {V : Type} (d : gmap string V) (k : string) :
  has_key d k = false -> getitem d k = Err (KeyError k).
Proof.
  unfold has_key, getitem. by destruct (d !! k).
Qed.

Lemma has_key_true {V : Type} (d : gmap string V) (k : string) :
  has_key d k = true -> exists v, getitem d k = Ok v.
Proof.
  intros H. destruct (has_key_getitem d k H) as (v & _ & Hv). by exists v.
Qed.

(** A feature dict that lacks one of the four keys makes the model function
    raise [KeyError] for the first key it lacks, in the order 'mmsi',
    'time_ranges', 'timestamps', 'features', in every mode and before the
    labels are looked at. *)
Theorem model_fn_missing_feature (self : ModelInst)
    (features : gmap string Tensor) (labels : option (gmap string Tensor))
    (mode : string) (params : gmap string pyval) (k : string) :
  first_missing_feature features = Some k ->
  _model_fn self features labels mode params = Err (KeyError k).
Proof.
  unfold first_missing_feature, _model_fn. intros Hk.
  destruct (has_key features "mmsi") eqn:E1; simpl in Hk.
  2: { injection Hk as <-. by rewrite (has_key_false _ _ E1). }
  destruct (has_key_true _ _ E1) as (v1 & ->). rewrite bind_Ok.
  destruct (has_key features "time_ranges") eqn:E2; simpl in Hk.
  2: { injection Hk as <-. by rewrite (has_key_false _ _ E2). }
  destruct (has_key_true _ _ E2) as (v2 & ->). rewrite bind_Ok.
  destruct (has_key features "timestamps") eqn:E3; simpl in Hk.
  2: { injection Hk as <-. by rewrite (has_key_false _ _ E3). }
  destruct (has_key_true _ _ E3) as (v3 & ->). rewrite bind_Ok.
  destruct (has_key features "features") eqn:E4; simpl in Hk; [discriminate |].
  injection Hk as <-. by rewrite (has_key_false _ _ E4).
Qed.

(** The loss loop stops at the first objective without a label entry. *)
Lemma add_losses_missing (net : Net) (d : gmap string Tensor)
    (pre post : list Objective) (obj : Objective) (acc : Loss) :
  forallb (fun o => has_key d (name o)) pre = true ->
  d !! name obj = None ->
  add_losses net (Some d) (pre ++ obj :: post) acc = Err (KeyError (name obj)).
Proof.
  revert acc. induction pre as [| o pre IH]; intros acc Hpre Hobj; simpl.
  - unfold getitem. by rewrite Hobj.
  - simpl in Hpre. apply andb_true_iff in Hpre as [Ho Hpre].
    destruct (has_key_true _ _ Ho) as (v & ->). rewrite bind_Ok. by apply IH.
Qed.

(** Outside PREDICT mode, with labels absent the model function raises
    [TypeError] at the first label access, also for a mode that is none of
    the three keys. *)
Theorem model_fn_labels_absent (self : ModelInst)
    (features : gmap string Tensor) (mode : string)
    (params : gmap string pyval) :
  features_ok features = true ->
  mode <> ModeKeys.PREDICT ->
  training_objectives self <> [] ->
  _model_fn self features None mode params = Err TypeError.
Proof.
  intros Hf Hp Hobjs.
  destruct (features_ok_entries _ Hf) as (mmsis & tr & ts & fs & H1 & H2 & H3 & H4).
  rewrite (model_fn_features self features None mode params _ _ _ _ H1 H2 H3 H4).
  cbv zeta. rewrite (bool_decide_eq_false_2 _ Hp).
  destruct (training_objectives self) as [| o objs]; [done |]. reflexivity.
Qed.

(** Outside PREDICT mode, a label dict without an entry for some objective
    makes the model function raise [KeyError] for the name of the first
    such objective in list order. *)
Theorem model_fn_missing_label (self : ModelInst)
    (features d : gmap string Tensor) (mode : string)
    (params : gmap string pyval) (pre post : list Objective) (obj : Objective) :
  features_ok features = true ->
  mode <> ModeKeys.PREDICT ->
  training_objectives self = pre ++ obj :: post ->
  forallb (fun o => has_key d (name o)) pre = true ->
  d !! name obj = None ->
  _model_fn self features (Some d) mode params = Err (KeyError (name obj)).
Proof.
  intros Hf Hp Hobjs Hpre Hobj.
  destruct (features_ok_entries _ Hf) as (mmsis & tr & ts & fs & H1 & H2 & H3 & H4).
  rewrite (model_fn_features self features (Some d) mode params _ _ _ _ H1 H2 H3 H4).
  cbv zeta. rewrite (bool_decide_eq_false_2 _ Hp), Hobjs.
  by rewrite add_losses_missing.
Qed.

Lemma add_losses_agree (net : Net) (d d' : gmap string Tensor)
    (objs : list Objective) (acc : Loss) :
  (forall obj, obj ∈ objs -> d !! name obj = d' !! name obj) ->
  add_losses net (Some d) objs acc = add_losses net (Some d') objs acc.
Proof.
  revert acc. induction objs as [| o objs IH]; intros acc H; simpl; [done |].
  unfold getitem. rewrite (H o) by apply list_elem_of_here.
  destruct (d' !! name o); [| done]. rewrite !bind_Ok.
  apply IH. intros obj Hin. apply H. by apply list_elem_of_further.
Qed.

Lemma add_metrics_agree (net : Net) (d d' : gmap string Tensor)
    (objs : list Objective) (m : gmap string MetricOp) :
  (forall obj, obj ∈ objs -> d !! name obj = d' !! name obj) ->
  add_metrics net (Some d) objs m = add_metrics net (Some d') objs m.
Proof.
  revert m. induction objs as [| o objs IH]; intros m H; simpl; [done |].
  unfold getitem. rewrite (H o) by apply list_elem_of_here.
  destruct (d' !! name o); [| done]. rewrite !bind_Ok.
  apply IH. intros obj Hin. apply H. by apply list_elem_of_further.
Qed.

(** The model function reads the feature dict at its four keys only, the
    label dict at the objectives' names only, and never its [params]: any
    other entry and any [params] leave the result, spec or exception,
    unchanged. *)
Theorem model_fn_reads_only_named_entries (self : ModelInst)
    (features features' d d' : gmap string Tensor) (mode : string)
    (params params' : gmap string pyval) :
  features !! "mmsi" = features' !! "mmsi" ->
  features !! "time_ranges" = features' !! "time_ranges" ->
  features !! "timestamps" = features' !! "timestamps" ->
  features !! "features" = features' !! "features" ->
  (forall obj, obj ∈ training_objectives self ->
     d !! name obj = d' !! name obj) ->
  _model_fn self features (Some d) mode params
  = _model_fn self features' (Some d') mode params'.
Proof.
  intros H1 H2 H3 H4 Hd. unfold _model_fn, getitem.
  rewrite H1, H2, H3, H4.
  destruct (features' !! "mmsi"); [rewrite !bind_Ok | done].
  destruct (features' !! "time_ranges"); [rewrite !bind_Ok | done].
  destruct (features' !! "timestamps"); [rewrite !bind_Ok | done].
  destruct (features' !! "features"); [rewrite !bind_Ok | done].
  cbv zeta.
  destruct (bool_decide (mode = ModeKeys.PREDICT)); [done |].
  rewrite (add_losses_agree _ d d' _ _ Hd).
  destruct (add_losses _ (Some d') _ _); [rewrite !bind_Ok | done].
  destruct (bool_decide (mode = ModeKeys.TRAIN)); [done |].
  destruct (negb (bool_decide (mode = ModeKeys.EVAL))); [done |].
  by rewrite (add_metrics_agree _ d d' _ _ Hd).
Qed.

End ModelFnErrors.

Section ModelFnResults.
Context `{Ext : Externals}.

Lemma add_metrics_fold (net : Net) (d : gmap string Tensor)
    (objs : list Objective) (lbls : list Tensor) (m : gmap string MetricOp) :
  Forall2 (fun obj l => d !! name obj = Some l) objs lbls ->
  add_metrics net (Some d) objs m
  = Ok (fold_left (fun acc x => x ∪ acc)
          (zip_with (create_metrics net) objs lbls) m).
Proof.
  intros H. revert m.
  induction H as [| o l objs lbls Hl _ IH]; intros m; simpl; [done |].
  unfold getitem. rewrite Hl, bind_Ok. apply IH.
Qed.

Lemma update_all_lookup {V : Type} (dicts : list (gmap string V))
    (m : gmap string V) (k : string) :
  fold_left (fun acc x => x ∪ acc) dicts m !! k = last_binding k dicts (m !! k).
Proof.
  unfold last_binding. revert m.
  induction dicts as [| x dicts IH]; intros m; simpl; [done |].
  rewrite IH, lookup_union. by destruct (x !! k), (m !! k).
Qed.

Lemma update_all_dom {V : Type} (dicts : list (gmap string V))
    (m : gmap string V) :
  dom (fold_left (fun acc x => x ∪ acc) dicts m) = ⋃ (dom <$> dicts) ∪ dom m.
Proof.
  revert m. induction dicts as [| x dicts IH]; intros m; simpl.
  - set_solver.
  - rewrite IH, dom_union_L. set_solver.
Qed.

(** In EVAL mode on well-formed inputs the metrics of the returned spec are
    the metric dicts of the objectives merged in list order: the keys are
    those of all the dicts, and a key that several objectives report keeps
    the value of the last of them. *)
Theorem eval_metrics_merge_in_order (self : ModelInst)
    (features d : gmap string Tensor) (params : gmap string pyval)
    (net : Net) (lbls : list Tensor) :
  features_ok features = true ->
  net_of self features ModeKeys.EVAL = Some net ->
  Forall2 (fun obj l => d !! name obj = Some l) (training_objectives self) lbls ->
  exists spec metrics,
    _model_fn self features (Some d) ModeKeys.EVAL params = Ok spec
    /\ spec_eval_metric_ops spec = Some metrics
    /\ dom metrics
       = ⋃ (dom <$> zip_with (create_metrics net) (training_objectives self) lbls)
    /\ forall k,
         metrics !! k
         = last_binding k
             (zip_with (create_metrics net) (training_objectives self) lbls) None.
Proof.
  intros Hf Hnet Hlbls.
  destruct (features_ok_entries _ Hf) as (mmsis & tr & ts & fs & H1 & H2 & H3 & H4).
  unfold net_of in Hnet. rewrite H1, H3, H4 in Hnet. simpl in Hnet.
  injection Hnet as <-.
  rewrite (model_fn_features self features (Some d) _ params _ _ _ _ H1 H2 H3 H4).
  cbv zeta.
  destruct mode_keys_distinct as (Htp & Hep & Hte).
  rewrite (bool_decide_eq_false_2 _ Hep).
  rewrite (add_losses_fold _ _ _ _ _ Hlbls), bind_Ok.
  rewrite (bool_decide_eq_false_2 (ModeKeys.EVAL = ModeKeys.TRAIN))
    by (intros E; by apply Hte).
  rewrite bool_decide_eq_true_2 by done. cbn [negb].
  rewrite (add_metrics_fold _ _ _ _ _ Hlbls), bind_Ok.
  eexists _, _. split; [reflexivity |]. split; [reflexivity |]. split.
  - rewrite update_all_dom, dom_empty_L. by rewrite (right_id_L ∅ (∪)).
  - intros k. by rewrite update_all_lookup, lookup_empty.
Qed.

(** Every spec the model function returns carries the mode it was called
    with and the fields of that mode only: predictions alone in PREDICT; a
    loss and, in TRAIN, the Adam step that minimises this very loss at the
    decayed learning rate; a loss and metrics, with no training step, in EVAL. *)
Theorem model_fn_spec_shape (self : ModelInst)
    (features : gmap string Tensor) (labels : option (gmap string Tensor))
    (mode : string) (params : gmap string pyval) (spec : EstimatorSpec) :
  _model_fn self features labels mode params = Ok spec ->
  spec_mode spec = mode
  /\ ((mode = ModeKeys.PREDICT
       /\ is_Some (spec_predictions spec) /\ spec_loss spec = None
       /\ spec_train_op spec = None /\ spec_eval_metric_ops spec = None)
      \/ (mode = ModeKeys.TRAIN
          /\ spec_predictions spec = None /\ spec_eval_metric_ops spec = None
          /\ exists total_loss,
               spec_loss spec = Some total_loss
               /\ spec_train_op spec
                  = Some (adam_minimize
                            (exponential_decay (PyNum.float_lit 1 1000)
                               get_global_step 100000 (PyNum.float_lit 2 10))
                            total_loss get_global_step))
      \/ (mode = ModeKeys.EVAL
          /\ spec_predictions spec = None /\ spec_train_op spec = None
          /\ is_Some (spec_loss spec) /\ is_Some (spec_eval_metric_ops spec))).
Proof.
  unfold _model_fn.
  destruct (getitem features "mmsi"); [rewrite bind_Ok | done].
  destruct (getitem features "time_ranges"); [rewrite bind_Ok | done].
  destruct (getitem features "timestamps"); [rewrite bind_Ok | done].
  destruct (getitem features "features"); [rewrite bind_Ok | done].
  cbv zeta.
  destruct (bool_decide (mode = ModeKeys.PREDICT)) eqn:Ep.
  { apply bool_decide_eq_true in Ep. intros [= <-]. simpl.
    split; [done |]. left. by repeat split. }
  destruct (add_losses _ _ _ _) as [total_loss |]; [rewrite bind_Ok | done].
  destruct (bool_decide (mode = ModeKeys.TRAIN)) eqn:Et.
  { apply bool_decide_eq_true in Et. intros [= <-]. simpl.
    split; [done |]. right; left. repeat split; try done.
    by exists total_loss. }
  destruct (bool_decide (mode = ModeKeys.EVAL)) eqn:Ee; [| done].
  apply bool_decide_eq_true in Ee. cbn [negb].
  destruct (add_metrics _ _ _ _) as [m |]; [rewrite bind_Ok | done].
  intros [= <-]. simpl. split; [done |]. right; right. by repeat split.
Qed.

(** Replacing the label entry of one objective changes the term of that
    objective in the loss sum and no other term, provided the objectives
    have pairwise distinct names. *)
Lemma labels_insert_entries (d : gmap string Tensor) (objs : list Objective)
    (lbls : list Tensor) (i : nat) (obj : Objective) (l' : Tensor) :
  NoDup (name <$> objs) ->
  objs !! i = Some obj ->
  Forall2 (fun o l => d !! name o = Some l) objs lbls ->
  Forall2 (fun o l => <[name obj := l']> d !! name o = Some l)
    objs (<[i := l']> lbls).
Proof.
  intros Hnd Hi H.
  apply Forall2_same_length_lookup in H as [Hlen H].
  apply Forall2_same_length_lookup. split; [by rewrite length_insert |].
  intros j o l Ho Hl.
  destruct (decide (j = i)) as [-> | Hne].
  - rewrite Hi in Ho. injection Ho as <-.
    rewrite list_lookup_insert_eq in Hl
      by (rewrite <- Hlen; by eapply lookup_lt_Some).
    injection Hl as <-. apply lookup_insert_eq.
  - rewrite list_lookup_insert_ne in Hl by done.
    rewrite lookup_insert_ne; [by eapply H |].
    intros Hname. apply Hne.
    apply (NoDup_lookup (name <$> objs) j i (name o)); [done | |].
    + by rewrite list_lookup_fmap, Ho.
    + rewrite list_lookup_fmap, Hi. simpl. by rewrite Hname.
Qed.

Theorem loss_term_follows_own_label (self : ModelInst)
    (features d : gmap string Tensor) (mode : string)
    (params : gmap string pyval) (net : Net) (lbls : list Tensor)
    (i : nat) (obj : Objective) (l' : Tensor) :
  mode = ModeKeys.TRAIN \/ mode = ModeKeys.EVAL ->
  features_ok features = true ->
  net_of self features mode = Some net ->
  NoDup (name <$> training_objectives self) ->
  training_objectives self !! i = Some obj ->
  Forall2 (fun o l => d !! name o = Some l) (training_objectives self) lbls ->
  exists spec,
    _model_fn self features (Some (<[name obj := l']> d)) mode params = Ok spec
    /\ spec_loss spec
       = Some (fold_left loss_add
                 (zip_with (create_loss net) (training_objectives self)
                    (<[i := l']> lbls))
                 loss_zero).
Proof.
  intros Hmode Hf Hnet Hnd Hi Hlbls.
  pose proof (labels_insert_entries d _ lbls i obj l' Hnd Hi Hlbls) as Hlbls'.
  destruct (features_ok_entries _ Hf) as (mmsis & tr & ts & fs & H1 & H2 & H3 & H4).
  unfold net_of in Hnet. rewrite H1, H3, H4 in Hnet. simpl in Hnet.
  injection Hnet as <-.
  rewrite (model_fn_features self features _ mode params _ _ _ _ H1 H2 H3 H4).
  cbv zeta.
  destruct mode_keys_distinct as (Htp & Hep & Hte).
  rewrite (add_losses_fold _ _ _ _ _ Hlbls').
  destruct Hmode as [-> | ->].
  - rewrite (bool_decide_eq_false_2 _ Htp), bind_Ok.
    rewrite bool_decide_eq_true_2 by done. eexists. by split.
  - rewrite (bool_decide_eq_false_2 _ Hep), bind_Ok.
    rewrite (bool_decide_eq_false_2 (ModeKeys.EVAL = ModeKeys.TRAIN))
      by (intros E; by apply Hte).
    rewrite bool_decide_eq_true_2 by done. cbn [negb].
    rewrite (add_metrics_fold _ _ _ _ _ Hlbls'), bind_Ok.
    eexists. by split.
Qed.

End ModelFnResults.

(** * Further properties of the label function and the input streams *)

Section LabelsAndStreams.
Context `{Ext : Externals}.

(** The ints [float] refuses start where rounding to nearest reaches
    2^1024, at 2^1024 - 2^970, on either side of zero. *)
Lemma int_too_large_boundary :
  PyNum.int_too_large (2 ^ 1024 - 2 ^ 970 - 1) = false
  /\ PyNum.int_too_large (2 ^ 1024 - 2 ^ 970) = true
  /\ PyNum.int_too_large (- (2 ^ 1024 - 2 ^ 970 - 1)) = false
  /\ PyNum.int_too_large (- (2 ^ 1024 - 2 ^ 970)) = true.
Proof. repeat split; vm_compute; reflexivity. Qed.

(** [XOrNan(key)(mmsi)] raises in three cases only: the metadata provider
    raises, and the same exception comes out; the label is a string other
    than the empty one that NumPy cannot read as a number, a [ValueError];
    or the label is an int too large for a double, an [OverflowError].
    The empty string and a float label never raise. *)
Theorem XOrNan_raises_iff (vm : VesselMetadata) (key : string) (mmsi : Z)
    (e : exn) :
  XOrNan vm key mmsi = Err e
  <-> vessel_label vm key mmsi = Err e
      \/ (e = ValueError
          /\ exists s, vessel_label vm key mmsi = Ok (PyStr s)
                       /\ s <> EmptyString /\ float32_of_str s = None)
      \/ (e = OverflowError
          /\ exists z, vessel_label vm key mmsi = Ok (PyInt z)
                       /\ PyNum.int_too_large z = true).
Proof.
  unfold XOrNan. split.
  - destruct (vessel_label vm key mmsi) as [x | e']; [rewrite bind_Ok | ].
    + destruct x as [s | z | f]; simpl; [| | discriminate].
      * case_bool_decide as Hs; [discriminate |]. simpl.
        destruct (float32_of_str s) eqn:Hp; [discriminate |].
        intros [= <-]. right; left. split; [done |]. by exists s.
      * destruct (PyNum.int_too_large z) eqn:Hz; [| discriminate].
        intros [= <-]. right; right. split; [done |]. by exists z.
    + intros [= <-]. by left.
  - intros [-> | [(-> & s & -> & Hs & Hp) | (-> & z & -> & Hz)]]; [done | |].
    + rewrite bind_Ok. simpl. rewrite bool_decide_eq_false_2 by done.
      simpl. by rewrite Hp.
    + rewrite bind_Ok. simpl. by rewrite Hz.
Qed.

(** The training, test and prediction streams are cut the same way: the
    three sources get the same feature count (one more than the model's
    feature dimensions), the same window size 12800 and the same minimal
    timeslice size 500; the training and test streams are batched by 128
    and the prediction stream by 1. *)
Theorem input_streams_share_window (self : ModelInst)
    (base_feature_path : string) (parallelism : Z) (prefetch_arg : option Z)
    (paths : list string) (range_info : list (Z * Z)) (parallelism' : Z) :
  exists training test prediction,
    make_training_input_fn self base_feature_path parallelism prefetch_arg tt
    = Ok training
    /\ make_test_input_fn self base_feature_path parallelism prefetch_arg tt
       = Ok test
    /\ make_prediction_input_fn self paths range_info parallelism' tt
       = Ok prediction
    /\ source_shape training = Some (num_feature_dimensions self + 1, 12800, 500)
    /\ source_shape test = source_shape training
    /\ source_shape prediction = source_shape training
    /\ outer_batch_size training = Some 128
    /\ outer_batch_size test = Some 128
    /\ outer_batch_size prediction = Some 1.
Proof.
  unfold make_training_input_fn, make_test_input_fn, make_prediction_input_fn.
  rewrite !make_input_fn_stream, get_window_max_points_12800, bind_Ok.
  eexists _, _, _. by repeat split.
Qed.

End LabelsAndStreams.

(** ** The further properties on the concrete environment *)

Lemma model_fn_missing_feature_witness :
  _model_fn (Ext := Sample.externals) Sample.model
    (delete "timestamps"%string Sample.features) (Some Sample.labels)
    ModeKeys.TRAIN ∅
  = Err (KeyError "timestamps").
Proof.
  apply (model_fn_missing_feature (Ext := Sample.externals) Sample.model
           (delete "timestamps"%string Sample.features) (Some Sample.labels)
           ModeKeys.TRAIN ∅ "timestamps").
  reflexivity.
Defined.

Lemma model_fn_labels_absent_witness :
  _model_fn (Ext := Sample.externals) Sample.model Sample.features None
    ModeKeys.EVAL ∅
  = Err TypeError.
Proof.
  apply (model_fn_labels_absent (Ext := Sample.externals) Sample.model
           Sample.features ModeKeys.EVAL ∅);
    first [reflexivity | discriminate].
Defined.

Lemma model_fn_missing_label_witness :
  _model_fn (Ext := Sample.externals) Sample.model Sample.features
    (Some (delete "tonnage"%string Sample.labels)) ModeKeys.EVAL ∅
  = Err (KeyError "tonnage").
Proof.
  apply (model_fn_missing_label (Ext := Sample.externals) Sample.model
           Sample.features (delete "tonnage"%string Sample.labels)
           ModeKeys.EVAL ∅
           (take 1 (training_objectives Sample.model))
           (drop 2 (training_objectives Sample.model))
           (LogRegressionObjectiveMAE "tonnage" "Vessel-tonnage"
              (XOrNan (Ext := Sample.externals) Sample.metadata "tonnage")
              "all" (PyFloat (PyNum.float_lit 1 10))));
    first [reflexivity | discriminate].
Defined.

Lemma model_fn_reads_only_named_entries_witness :
  _model_fn (Ext := Sample.externals) Sample.model Sample.features
    (Some Sample.labels) ModeKeys.TRAIN ∅
  = _model_fn (Ext := Sample.externals) Sample.model
      (<["extra"%string := 9]> Sample.features)
      (Some (<["other"%string := 7]> Sample.labels)) ModeKeys.TRAIN
      {[ "batch"%string := PyInt 1 ]}.
Proof.
  apply (model_fn_reads_only_named_entries (Ext := Sample.externals));
    try reflexivity.
  intros obj Hin.
  repeat (apply elem_of_cons in Hin as [-> | Hin]; [reflexivity |]).
  by apply elem_of_nil in Hin.
Defined.

Lemma eval_metrics_merge_in_order_witness :
  exists spec metrics,
    _model_fn (Ext := Sample.externals) Sample.model Sample.features
      (Some Sample.labels) ModeKeys.EVAL ∅ = Ok spec
    /\ spec_eval_metric_ops spec = Some metrics
    /\ metrics !! "crew_size"%string = Some 40.
Proof.
  destruct (eval_metrics_merge_in_order (Ext := Sample.externals) Sample.model
              Sample.features Sample.labels ∅ false [10; 20; 30; 40; 50])
    as (spec & metrics & Hs & Hm & _ & Hk).
  - reflexivity.
  - reflexivity.
  - repeat constructor.
  - exists spec, metrics. split; [exact Hs |]. split; [exact Hm |].
    exact (eq_trans (Hk "crew_size"%string) eq_refl).
Defined.

Lemma model_fn_spec_shape_witness :
  exists spec,
    _model_fn (Ext := Sample.externals) Sample.model Sample.features
      (Some Sample.labels) ModeKeys.TRAIN ∅ = Ok spec
    /\ spec_mode spec = ModeKeys.TRAIN.
Proof.
  eexists. split; [reflexivity |].
  apply (model_fn_spec_shape (Ext := Sample.externals) Sample.model
           Sample.features (Some Sample.labels) ModeKeys.TRAIN ∅).
  reflexivity.
Defined.

Lemma loss_term_follows_own_label_witness :
  exists spec,
    _model_fn (Ext := Sample.externals) Sample.model Sample.features
      (Some (<["tonnage"%string := 100]> Sample.labels)) ModeKeys.TRAIN ∅
    = Ok spec
    /\ spec_loss spec = Some (10 * 6 + 100 * 7 + 30 * 12 + 40 * 9 + 50 * 10).
Proof.
  apply (loss_term_follows_own_label (Ext := Sample.externals) Sample.model
           Sample.features Sample.labels ModeKeys.TRAIN ∅ true
           [10; 20; 30; 40; 50] 1%nat
           (LogRegressionObjectiveMAE "tonnage" "Vessel-tonnage"
              (XOrNan (Ext := Sample.externals) Sample.metadata "tonnage")
              "all" (PyFloat (PyNum.float_lit 1 10)))
           100).
  - left; reflexivity.
  - reflexivity.
  - reflexivity.
  - apply (init_names_NoDup (Ext := Sample.externals)).
  - reflexivity.
  - repeat constructor.
Defined.

Lemma XOrNan_raises_iff_witness :
  XOrNan (Ext := Sample.externals) Sample.metadata "length" 3
  = Err (KeyError "length")
  /\ XOrNan (Ext := Sample.externals) Sample.metadata_huge "length" 3
     = Err OverflowError.
Proof.
  split.
  - apply (XOrNan_raises_iff (Ext := Sample.externals) Sample.metadata "length" 3).
    left. reflexivity.
  - apply (XOrNan_raises_iff (Ext := Sample.externals)
             Sample.metadata_huge "length" 3).
    right; right. split; [reflexivity |].
    exists (2 ^ 1024). split; [reflexivity | vm_compute; reflexivity].
Defined.
